(** * The Stripe Terminal relay of [src/server.js]

    A shallow embedding of the Express handlers of [server.js], of the
    helpers [logInfo], [validateApiKey] and [lookupOrCreateExampleCustomer],
    and of the choice of the secret key at start-up.

    - JavaScript values are a JSON-like inductive type; objects are
      association lists read by first match, a missing property reads as
      [undefined].  Numbers are the safe integers (below 2^53 in absolute
      value: amounts are minor currency units); other doubles are outside
      the model.
    - An expression either yields a value or throws.  Reading a property of
      [undefined] or [null] throws a TypeError, and so does a template
      literal on an object that has a [toString] property of its own (a
      parsed value is never callable).  The messages of these TypeErrors are
      those of V8, the engine of Node.
    - The body of a request is the object body-parser leaves in [req.body].
    - The vendor SDK is an arbitrary stateful oracle [stripe]: every awaited
      call steps a vendor state and either resolves or rejects with any
      value.  A list call resolves to its [data] array, the only field of a
      list object the handlers read.
    - A handler is a computation in a small state-and-exception monad over
      the vendor state, the response status code and a chronological trace
      of what the handler did: vendor calls (and their rejections), console
      lines, and the response that was sent.  A handler that throws leaves
      its request unanswered. *)

From Stdlib Require Import String Ascii List ZArith Bool Lia DecimalString.
Import ListNotations.
Open Scope string_scope.

(** ** JavaScript values *)

Set Warnings "-register-all".

(** The integers a double holds exactly, which print as their digits. *)
Definition safe (n : Z) : bool := (Z.abs n <? 2 ^ 53)%Z.

Record number := Num { num_value : Z; num_safe : safe num_value = true }.

Inductive jsval : Type :=
| JUndefined
| JNull
| JBool (b : bool)
| JNum (n : number)
| JStr (s : string)
| JArr (elems : list jsval)
| JObj (fields : list (string * jsval)).

Definition obj := list (string * jsval).

(** How an expression completes: with a value, or by throwing one. *)
Inductive completion (A : Type) : Type :=
| Normal (a : A)
| Throw (err : jsval).

Arguments Normal {A} a.
Arguments Throw {A} err.

Definition TypeError (message : string) : jsval :=
  JObj [("name", JStr "TypeError"); ("message", JStr message)].

(** [o.k]: the first binding of [k], [undefined] when there is none. *)
Fixpoint prop (o : obj) (k : string) : jsval :=
  match o with
  | [] => JUndefined
  | (k', v) :: o' => if String.eqb k' k then v else prop o' k
  end.

(** [k in o] for a parsed body: whether the caller supplied the field. *)
Fixpoint has_prop (o : obj) (k : string) : bool :=
  match o with
  | [] => false
  | (k', _) :: o' => String.eqb k' k || has_prop o' k
  end.

(** [v.k] on any value, for a [k] no prototype defines: a TypeError on
    [undefined] and [null], the property on an object, [undefined] on
    every other value. *)
Definition member (v : jsval) (k : string) : completion jsval :=
  match v with
  | JUndefined =>
      Throw (TypeError ("Cannot read properties of undefined (reading '" ++ k ++ "')"))
  | JNull =>
      Throw (TypeError ("Cannot read properties of null (reading '" ++ k ++ "')"))
  | JObj o => Normal (prop o k)
  | _ => Normal JUndefined
  end.

(** ToBoolean: what [!v] and [v || d] test. *)
Definition truthy (v : jsval) : bool :=
  match v with
  | JUndefined | JNull => false
  | JBool b => b
  | JNum n => negb (num_value n =? 0)%Z
  | JStr s => negb (String.eqb s "")
  | JArr _ | JObj _ => true
  end.

(** [a || d] *)
Definition js_or (a d : jsval) : jsval := if truthy a then a else d.

Infix "|||" := js_or (at level 50, left associativity).

(** Number::toString on a safe integer, and on the length of an array
    (which is below 2^32). *)
Definition NumberToString (n : Z) : string :=
  NilZero.string_of_int (Z.to_int n).

(** [parts.join(",")] over parts that are rendered from left to right:
    the first that throws ends the join. *)
Fixpoint join_rendered (parts : list (completion string)) : completion string :=
  match parts with
  | [] => Normal ""
  | part :: rest =>
      match part with
      | Throw e => Throw e
      | Normal s =>
          match rest with
          | [] => Normal s
          | _ :: _ =>
              match join_rendered rest with
              | Throw e => Throw e
              | Normal t => Normal (s ++ "," ++ t)
              end
          end
      end
  end.

(** ToString, as a template literal [`${v}`] applies it.  An array joins
    its elements with commas, [undefined] and [null] as the empty string.
    An object prints as [[object Object]] through the inherited [toString];
    an own [toString] shadows it, is not callable, and leaves no way to a
    primitive: a TypeError. *)
Fixpoint ToString (v : jsval) : completion string :=
  match v with
  | JUndefined => Normal "undefined"
  | JNull => Normal "null"
  | JBool true => Normal "true"
  | JBool false => Normal "false"
  | JNum n => Normal (NumberToString (num_value n))
  | JStr s => Normal s
  | JArr l =>
      join_rendered
        (map (fun x => match x with
                       | JUndefined | JNull => Normal ""
                       | _ => ToString x
                       end) l)
  | JObj o =>
      if has_prop o "toString"
      then Throw (TypeError "Cannot convert object to primitive value")
      else Normal "[object Object]"
  end.

(** Induction on a value through the elements of its arrays. *)
Section ArrayInduction.

Variable P : jsval -> Prop.
Hypothesis on_undefined : P JUndefined.
Hypothesis on_null : P JNull.
Hypothesis on_bool : forall b, P (JBool b).
Hypothesis on_num : forall n, P (JNum n).
Hypothesis on_str : forall s, P (JStr s).
Hypothesis on_arr : forall l, Forall P l -> P (JArr l).
Hypothesis on_obj : forall o, P (JObj o).

Fixpoint jsval_array_ind (v : jsval) : P v :=
  match v with
  | JUndefined => on_undefined
  | JNull => on_null
  | JBool b => on_bool b
  | JNum n => on_num n
  | JStr s => on_str s
  | JArr l =>
      on_arr l
        ((fix all (l : list jsval) : Forall P l :=
            match l with
            | [] => Forall_nil P
            | x :: rest => Forall_cons x (jsval_array_ind x) (all rest)
            end) l)
  | JObj o => on_obj o
  end.

End ArrayInduction.

(** [`${before}${v}`] *)
Definition interpolate (before : string) (v : jsval) : completion string :=
  match ToString v with
  | Normal s => Normal (before ++ s)
  | Throw e => Throw e
  end.

(** [`${err.message}`], the tail of every failure text. *)
Definition rendered_message (err : jsval) : completion string :=
  match member err "message" with
  | Normal message => ToString message
  | Throw e => Throw e
  end.

(** [s.includes(m)] *)
Fixpoint includes (m s : string) : bool :=
  String.prefix m s ||
  match s with
  | EmptyString => false
  | String _ s' => includes m s'
  end.

(** ** The secret key and the credential validator *)

(** [process.env]: a variable that is set holds a string. *)
Definition environment := string -> option string.

Definition getenv (env : environment) (name : string) : jsval :=
  match env name with
  | Some value => JStr value
  | None => JUndefined
  end.

(** The first argument of [new Stripe]: the live key when [STRIPE_ENV] is
    exactly [production], the test key otherwise. *)
Definition configured_key (env : environment) : jsval :=
  match env "STRIPE_ENV" with
  | Some mode =>
      if String.eqb mode "production"
      then getenv env "STRIPE_SECRET_KEY"
      else getenv env "STRIPE_TEST_SECRET_KEY"
  | None => getenv env "STRIPE_TEST_SECRET_KEY"
  end.

(** The module-level handle [stripe], as the constructor [Stripe] of the
    SDK builds it from the key and the options. *)
Definition stripe_handle (Stripe : jsval -> jsval -> jsval) (env : environment) : jsval :=
  Stripe (configured_key env) (JObj [("apiVersion", JStr "2020-03-02")]).

(** [stripe.StripeResource.STRIPE_SECRET_KEY] *)
Definition key_read (stripe : jsval) : completion jsval :=
  match member stripe "StripeResource" with
  | Normal resource => member resource "STRIPE_SECRET_KEY"
  | Throw e => Throw e
  end.

(** [key.startsWith(prefix)]: only a string has the method. *)
Definition startsWith (key : jsval) (prefix : string) : completion bool :=
  match key with
  | JStr s => Normal (String.prefix prefix s)
  | _ => Throw (TypeError "key.startsWith is not a function")
  end.

(** [validateApiKey] on the handle it finds in [stripe]; [None] is [null]. *)
Definition validateApiKey (stripe : jsval) : completion (option string) :=
  if negb (truthy stripe) then
    Normal (Some "Error: you provided an empty secret key. Please provide your test mode secret key.")
  else
    match key_read stripe with
    | Throw e => Throw e
    | Normal key =>
        if negb (truthy key) then
          Normal (Some "Error: you provided an empty secret key. Please provide your test mode secret key.")
        else
          match startsWith key "pk_" with
          | Throw e => Throw e
          | Normal true =>
              Normal (Some "Error: you used a publishable key. Use your test secret key.")
          | Normal false =>
              match startsWith key "sk_live" with
              | Throw e => Throw e
              | Normal true =>
                  Normal (Some "Error: you used a live mode secret key. Use your test mode secret key.")
              | Normal false => Normal None
              end
          end
    end.

(** ** Vendor calls, responses and the trace of a handler *)

Inductive vendor_call : Type :=
| terminal_readers_create (params : jsval)
| terminal_connectionTokens_create
| paymentIntents_create (params : jsval)
| paymentIntents_capture (id : jsval) (params : jsval)
| paymentIntents_cancel (id : jsval)
| paymentIntents_update (id : jsval) (params : jsval)
| setupIntents_create (params : jsval)
| customers_list (params : jsval)
| customers_create (params : jsval)
| paymentMethods_attach (id : jsval) (params : jsval)
| terminal_locations_list (params : jsval)
| terminal_locations_create (params : jsval).

(** What the promise of a call resolves to. *)
Definition reply (c : vendor_call) : Type :=
  match c with
  | customers_list _ | terminal_locations_list _ => list obj
  | _ => obj
  end.

Inductive payload : Type :=
| JsonBody (v : jsval)
| TextBody (s : string)
| FileBody (file : string).

Inductive event : Type :=
| EvCall (c : vendor_call)
| EvRejected (err : jsval)
| EvLog (line : string)
| EvSend (status : Z) (body : payload).

Definition calls_of (tr : list event) : list vendor_call :=
  flat_map (fun e => match e with EvCall c => [c] | _ => [] end) tr.

Definition rejections_of (tr : list event) : list jsval :=
  flat_map (fun e => match e with EvRejected err => [err] | _ => [] end) tr.

Definition logs_of (tr : list event) : list string :=
  flat_map (fun e => match e with EvLog l => [l] | _ => [] end) tr.

Definition sends_of (tr : list event) : list (Z * payload) :=
  flat_map (fun e => match e with EvSend s b => [(s, b)] | _ => [] end) tr.

(** Every response of the trace is sent after at least one console line.
    [seen] tells whether a line was written so far. *)
Fixpoint sends_follow_log (seen : bool) (tr : list event) : bool :=
  match tr with
  | [] => true
  | EvLog _ :: tr' => sends_follow_log true tr'
  | EvSend _ _ :: tr' => seen && sends_follow_log seen tr'
  | _ :: tr' => sends_follow_log seen tr'
  end.

(** The outcome is logged before it is answered: one response, with a
    console line ahead of it. *)
Definition logged_before_response (tr : list event) : bool :=
  (length (sends_of tr) =? 1)%nat && sends_follow_log false tr.

Record request := { body : obj }.

Inductive route : Type :=
| GET_root
| GET_test
| POST_register_reader
| POST_connection_token
| POST_create_payment_intent
| POST_capture_payment_intent
| POST_cancel_payment_intent
| POST_create_setup_intent
| POST_attach_payment_method_to_customer
| POST_update_payment_intent
| GET_list_locations
| POST_create_location.

(** ** The handler monad *)

Section Relay.

Variable V : Type.

(** The vendor: the state it is in and the call decide whether the promise
    resolves ([inl]) or rejects ([inr], with any value), and the state the
    vendor is left in. *)
Variable stripe : forall c : vendor_call, V -> (reply c + jsval) * V.

Record world := mkWorld {
  vendor : V;
  statusCode : Z;
  trace : list event
}.

Definition js (A : Type) : Type := world -> completion A * world.

Definition ret {A} (a : A) : js A := fun w => (Normal a, w).

Definition bind {A B} (m : js A) (k : A -> js B) : js B :=
  fun w =>
    match m w with
    | (Normal a, w') => k a w'
    | (Throw err, w') => (Throw err, w')
    end.

Notation "x <- m ;; k" := (bind m (fun x => k))
  (at level 61, m at next level, right associativity).
Notation "m ;; k" := (bind m (fun _ => k))
  (at level 61, right associativity).

(** An expression evaluated inside a handler. *)
Definition eval {A} (e : completion A) : js A := fun w => (e, w).

(** [try { m } catch (err) { h }] *)
Definition try_catch {A} (m : js A) (h : jsval -> js A) : js A :=
  fun w =>
    match m w with
    | (Normal a, w') => (Normal a, w')
    | (Throw err, w') => h err w'
    end.

Definition emit (e : event) : js unit :=
  fun w => (Normal tt, mkWorld (vendor w) (statusCode w) (trace w ++ [e])).

(** [await stripe.<call>] *)
Definition await (c : vendor_call) : js (reply c) :=
  fun w =>
    let w1 := mkWorld (vendor w) (statusCode w) (trace w ++ [EvCall c]) in
    match stripe c (vendor w) with
    | (inl r, v') => (Normal r, mkWorld v' (statusCode w1) (trace w1))
    | (inr err, v') =>
        (Throw err, mkWorld v' (statusCode w1) (trace w1 ++ [EvRejected err]))
    end.

Definition console_log (line : string) : js unit := emit (EvLog line).

Definition logInfo (message : string) : js string :=
  console_log (String "010" "" ++ message ++ String "010" "") ;;
  ret message.

(** [res.status(code)] *)
Definition res_status (code : Z) : js unit :=
  fun w => (Normal tt, mkWorld (vendor w) code (trace w)).

Definition res_end (b : payload) : js unit :=
  fun w => emit (EvSend (statusCode w) b) w.

Definition res_json (v : jsval) : js unit := res_end (JsonBody v).

Definition res_send (text : string) : js unit := res_end (TextBody text).

Definition res_sendFile (file : string) : js unit := res_end (FileBody file).

(** [res.status(402).send(logInfo(`${context} ${err.message}`))]: the
    status is set first, then the argument is evaluated, which throws when
    [err.message] cannot be read or rendered. *)
Definition fail_402 (context : string) (err : jsval) : js unit :=
  res_status 402 ;;
  message <- eval (rendered_message err) ;;
  text <- logInfo (context ++ " " ++ message) ;;
  res_send text.

(** ** The handlers *)

Definition root (req : request) : js unit :=
  res_status 200 ;;
  res_sendFile "index.html".

Definition test (req : request) : js unit :=
  res_status 200 ;;
  res_json (JObj [("data", JStr "hello worlds")]).

Definition register_reader (req : request) : js unit :=
  try_catch
    (reader <- await (terminal_readers_create (JObj
       [("registration_code", prop (body req) "registration_code");
        ("label", prop (body req) "label");
        ("location", prop (body req) "location")])) ;;
     message <- eval (interpolate "Reader registered: " (prop reader "id")) ;;
     logInfo message ;;
     res_status 200 ;;
     res_json (JObj reader))
    (fail_402 "Error registering reader!").

Definition connection_token (req : request) : js unit :=
  try_catch
    (token <- await terminal_connectionTokens_create ;;
     res_status 200 ;;
     res_json (JObj [("secret", prop token "secret")]))
    (fail_402 "Error creating ConnectionToken!").

Definition create_payment_intent (req : request) : js unit :=
  try_catch
    (paymentIntent <- await (paymentIntents_create (JObj
       [("payment_method_types",
           prop (body req) "payment_method_types" ||| JArr [JStr "card_present"]);
        ("capture_method", prop (body req) "capture_method" ||| JStr "manual");
        ("amount", prop (body req) "amount");
        ("currency", prop (body req) "currency" ||| JStr "gbp");
        ("description",
           prop (body req) "description" ||| JStr "Example PaymentIntent");
        ("payment_method_options",
           prop (body req) "payment_method_options" ||| JObj []);
        ("receipt_email", prop (body req) "receipt_email")])) ;;
     message <- eval (interpolate "PaymentIntent created: " (prop paymentIntent "id")) ;;
     logInfo message ;;
     res_status 200 ;;
     res_json (JObj [("intent", prop paymentIntent "id");
                     ("secret", prop paymentIntent "client_secret")]))
    (fail_402 "Error creating PaymentIntent!").

Definition capture_payment_intent (req : request) : js unit :=
  try_catch
    (let payment_intent_id := prop (body req) "payment_intent_id" in
     let amount_to_capture := prop (body req) "amount_to_capture" in
     paymentIntent <- await (paymentIntents_capture payment_intent_id
       (JObj [("amount_to_capture", amount_to_capture)])) ;;
     message <- eval (interpolate "PaymentIntent captured: " payment_intent_id) ;;
     logInfo message ;;
     res_status 200 ;;
     res_json (JObj [("intent", prop paymentIntent "id");
                     ("secret", prop paymentIntent "client_secret")]))
    (fail_402 "Error capturing PaymentIntent!").

Definition cancel_payment_intent (req : request) : js unit :=
  try_catch
    (let payment_intent_id := prop (body req) "payment_intent_id" in
     paymentIntent <- await (paymentIntents_cancel payment_intent_id) ;;
     message <- eval (interpolate "PaymentIntent canceled: " payment_intent_id) ;;
     logInfo message ;;
     res_status 200 ;;
     res_json (JObj [("intent", prop paymentIntent "id");
                     ("secret", prop paymentIntent "client_secret")]))
    (fail_402 "Error canceling PaymentIntent!").

Definition create_setup_intent (req : request) : js unit :=
  try_catch
    (let params := JObj
       [("payment_method_types",
           prop (body req) "payment_method_types" ||| JArr [JStr "card_present"]);
        ("customer", prop (body req) "customer");
        ("description", prop (body req) "description");
        ("on_behalf_of", prop (body req) "on_behalf_of")] in
     setupIntent <- await (setupIntents_create params) ;;
     message <- eval (interpolate "SetupIntent created: " (prop setupIntent "id")) ;;
     logInfo message ;;
     res_status 200 ;;
     res_json (JObj [("intent", prop setupIntent "id");
                     ("secret", prop setupIntent "client_secret")]))
    (fail_402 "Error creating SetupIntent!").

Definition lookupOrCreateExampleCustomer : js obj :=
  let email := JStr "example@test.com" in
  customers <- await (customers_list
    (JObj [("email", email); ("limit", JNum (Num 1 eq_refl))])) ;;
  match customers with
  | customer :: _ => ret customer
  | [] => await (customers_create (JObj [("email", email)]))
  end.

Definition attach_payment_method_to_customer (req : request) : js unit :=
  try_catch
    (customer <- lookupOrCreateExampleCustomer ;;
     paymentMethod <- await (paymentMethods_attach
       (prop (body req) "payment_method_id")
       (JObj [("customer", prop customer "id");
              ("expand", JArr [JStr "customer"])])) ;;
     message <- eval (interpolate "Attached PaymentMethod to Customer: "
                        (prop customer "id")) ;;
     logInfo message ;;
     res_status 200 ;;
     res_json (JObj paymentMethod))
    (fail_402 "Error attaching PaymentMethod!").

Definition update_payment_intent (req : request) : js unit :=
  let payment_intent_id := prop (body req) "payment_intent_id" in
  let receipt_email := prop (body req) "receipt_email" in
  if negb (truthy payment_intent_id) then
    res_status 400 ;;
    message <- logInfo "'payment_intent_id' is required" ;;
    res_send message
  else
    try_catch
      (paymentIntent <- await (paymentIntents_update payment_intent_id
         (JObj [("receipt_email", receipt_email)])) ;;
       message <- eval (interpolate "Updated PaymentIntent " payment_intent_id) ;;
       logInfo message ;;
       res_status 200 ;;
       res_json (JObj [("intent", prop paymentIntent "id");
                       ("secret", prop paymentIntent "client_secret")]))
      (fail_402 "Error updating PaymentIntent!").

Definition list_locations (req : request) : js unit :=
  try_catch
    (locations <- await (terminal_locations_list
       (JObj [("limit", JNum (Num 100 eq_refl))])) ;;
     logInfo (NumberToString (Z.of_nat (length locations)) ++ " Locations fetched") ;;
     res_status 200 ;;
     res_json (JArr (map JObj locations)))
    (fail_402 "Error fetching Locations!").

Definition create_location (req : request) : js unit :=
  try_catch
    (location <- await (terminal_locations_create (JObj
       [("display_name", prop (body req) "display_name");
        ("address", prop (body req) "address")])) ;;
     message <- eval (interpolate "Location created: " (prop location "id")) ;;
     logInfo message ;;
     res_status 200 ;;
     res_json (JObj location))
    (fail_402 "Error creating Location!").

(** The routing table of [app]. *)
Definition handler (r : route) : request -> js unit :=
  match r with
  | GET_root => root
  | GET_test => test
  | POST_register_reader => register_reader
  | POST_connection_token => connection_token
  | POST_create_payment_intent => create_payment_intent
  | POST_capture_payment_intent => capture_payment_intent
  | POST_cancel_payment_intent => cancel_payment_intent
  | POST_create_setup_intent => create_setup_intent
  | POST_attach_payment_method_to_customer => attach_payment_method_to_customer
  | POST_update_payment_intent => update_payment_intent
  | GET_list_locations => list_locations
  | POST_create_location => create_location
  end.

(** One request served from a fresh response object (status 200, nothing
    written yet) against the vendor in state [v]. *)
Definition serve (r : route) (req : request) (v : V) : completion unit * world :=
  handler r req (mkWorld v 200 []).

Definition trace_of (r : route) (req : request) (v : V) : list event :=
  trace (snd (serve r req v)).

End Relay.

Arguments vendor {V} w.
Arguments statusCode {V} w.
Arguments trace {V} w.
Arguments mkWorld {V} vendor statusCode trace.

(** ** Vendors to run the handlers against *)

(** A vendor that rejects every call with [reason]. *)
Definition rejecting (reason : jsval) (c : vendor_call) (v : unit) :
    (reply c + jsval) * unit :=
  (inr reason, v).

(** The error of a declined card. *)
Definition declined : jsval :=
  JObj [("type", JStr "StripeCardError");
        ("message", JStr "Your card was declined.")].

(** A vendor that rejects every call the way a declined card does. *)
Definition declining (c : vendor_call) (v : unit) : (reply c + jsval) * unit :=
  rejecting declined c v.

(** A test-mode vendor that accepts every call.  Its state counts the
    customers registered under the sentinel address; every intent and token
    it hands out carries [secret]. *)
Definition accepting (secret : string) (c : vendor_call) : nat -> (reply c + jsval) * nat :=
  match c as c0 return nat -> (reply c0 + jsval) * nat with
  | customers_list _ =>
      fun n =>
        (inl match n with
             | O => []
             | S _ => [[("id", JStr "cus_1"); ("email", JStr "example@test.com")]]
             end, n)
  | customers_create _ =>
      fun n => (inl [("id", JStr "cus_1"); ("email", JStr "example@test.com")], S n)
  | terminal_locations_list _ =>
      fun n =>
        (inl [[("id", JStr "tml_1"); ("display_name", JStr "Till 1")];
              [("id", JStr "tml_2"); ("display_name", JStr "Till 2")]], n)
  | terminal_connectionTokens_create =>
      fun n => (inl [("object", JStr "terminal.connection_token");
                     ("secret", JStr secret)], n)
  | paymentIntents_create _
  | paymentIntents_capture _ _
  | paymentIntents_cancel _
  | paymentIntents_update _ _ =>
      fun n => (inl [("id", JStr "pi_1"); ("client_secret", JStr secret)], n)
  | setupIntents_create _ =>
      fun n => (inl [("id", JStr "seti_1"); ("client_secret", JStr secret)], n)
  | paymentMethods_attach id params =>
      fun n =>
        (inl [("id", id);
              ("customer",
                 match params with
                 | JObj fields => JObj [("id", prop fields "customer")]
                 | _ => JNull
                 end)], n)
  | terminal_readers_create _ =>
      fun n => (inl [("id", JStr "tmr_1")], n)
  | terminal_locations_create _ =>
      fun n => (inl [("id", JStr "tml_3")], n)
  end.

(** Two handles an SDK may build: one that keeps the key out of sight and
    exposes no [StripeResource], one that exposes [StripeResource] with
    what can be read off a class. *)
Definition Stripe_sealed (key options : jsval) : jsval :=
  JObj [("_api", JObj [("auth", key); ("version", options)])].

Definition Stripe_with_resource (key options : jsval) : jsval :=
  JObj [("_api", JObj [("auth", key); ("version", options)]);
        ("StripeResource", JObj [("name", JStr "StripeResource");
                                 ("MAX_BUFFERED_REQUEST_METRICS", JNum (Num 100 eq_refl))])].

(** The environment of a test deployment. *)
Definition test_environment : environment :=
  fun name =>
    if String.eqb name "STRIPE_TEST_SECRET_KEY" then Some "sk_test_51H" else None.

(** The fields [create_payment_intent] defaults with [||], each with the
    literal on the right of its [||]. *)
Definition payment_intent_defaults : list (string * jsval) :=
  [("payment_method_types", JArr [JStr "card_present"]);
   ("capture_method", JStr "manual");
   ("currency", JStr "gbp");
   ("description", JStr "Example PaymentIntent")].

(** The routes whose success path has no [logInfo] call: the landing page,
    the health check, and the hand-out of a connection token. *)
Definition silent_on_success (r : route) : bool :=
  match r with
  | GET_root | GET_test | POST_connection_token => true
  | _ => false
  end.

(** ** Vendors that differ in their secrets only *)

(** Two resolved objects that agree on every property but [client_secret]
    (of an intent) and [secret] (of a connection token). *)
Definition same_but_secret (o1 o2 : obj) : Prop :=
  forall k, k <> "client_secret" -> k <> "secret" -> prop o1 k = prop o2 k.

Definition replies_alike (c : vendor_call) : reply c -> reply c -> Prop :=
  match c with
  | customers_list _ | terminal_locations_list _ => Forall2 same_but_secret
  | _ => same_but_secret
  end.

(** Two answers to the call [c]: rejected alike with one error, or resolved
    alike up to the secrets; the vendors are left in related states. *)
Definition answers_alike {V1 V2 : Type} (R : V1 -> V2 -> Prop) (c : vendor_call)
    (a1 : (reply c + jsval) * V1) (a2 : (reply c + jsval) * V2) : Prop :=
  R (snd a1) (snd a2) /\
  match fst a1, fst a2 with
  | inl r1, inl r2 => replies_alike c r1 r2
  | inr e1, inr e2 => e1 = e2
  | _, _ => False
  end.

(** ** What a handler leaves in its trace *)

(** No vendor call and no rejection in the trace. *)
Fixpoint no_vendor_event (tr : list event) : bool :=
  match tr with
  | [] => true
  | EvCall _ :: _ | EvRejected _ :: _ => false
  | _ :: tr' => no_vendor_event tr'
  end.

(** Nothing of the vendor follows the first rejection of the trace. *)
Fixpoint stops_at_rejection (tr : list event) : bool :=
  match tr with
  | [] => true
  | EvRejected _ :: tr' => no_vendor_event tr'
  | _ :: tr' => stops_at_rejection tr'
  end.

(** The object a call resolved to, for the calls that resolve to one. *)
Definition resolved_object (c : vendor_call) : reply c + jsval -> option obj :=
  match c return reply c + jsval -> option obj with
  | customers_list _ | terminal_locations_list _ => fun _ => None
  | _ => fun a => match a with inl o => Some o | inr _ => None end
  end.

(** The literal each [catch] block puts ahead of [err.message]. *)
Definition failure_context (r : route) : option string :=
  match r with
  | GET_root | GET_test => None
  | POST_register_reader => Some "Error registering reader!"
  | POST_connection_token => Some "Error creating ConnectionToken!"
  | POST_create_payment_intent => Some "Error creating PaymentIntent!"
  | POST_capture_payment_intent => Some "Error capturing PaymentIntent!"
  | POST_cancel_payment_intent => Some "Error canceling PaymentIntent!"
  | POST_create_setup_intent => Some "Error creating SetupIntent!"
  | POST_attach_payment_method_to_customer => Some "Error attaching PaymentMethod!"
  | POST_update_payment_intent => Some "Error updating PaymentIntent!"
  | GET_list_locations => Some "Error fetching Locations!"
  | POST_create_location => Some "Error creating Location!"
  end.

(** The routes that await exactly one vendor call inside their [try]. *)
Definition single_call_routes : list route :=
  [POST_register_reader; POST_connection_token; POST_create_payment_intent;
   POST_capture_payment_intent; POST_cancel_payment_intent;
   POST_create_setup_intent; POST_update_payment_intent; GET_list_locations;
   POST_create_location].

(** The value a route interpolates into the console line of a resolved
    call: the [payment_intent_id] of the request on a capture, a cancel and
    an update, the [id] of the resolved object [o] elsewhere. *)
Definition logged_id (r : route) (req : request) (o : obj) : jsval :=
  match r with
  | POST_capture_payment_intent
  | POST_cancel_payment_intent
  | POST_update_payment_intent => prop (body req) "payment_intent_id"
  | _ => prop o "id"
  end.

(** The properties of [req.body] each handler reads. *)
Definition fields_read (r : route) : list string :=
  match r with
  | GET_root | GET_test | POST_connection_token | GET_list_locations => []
  | POST_register_reader => ["registration_code"; "label"; "location"]
  | POST_create_payment_intent =>
      ["payment_method_types"; "capture_method"; "amount"; "currency";
       "description"; "payment_method_options"; "receipt_email"]
  | POST_capture_payment_intent => ["payment_intent_id"; "amount_to_capture"]
  | POST_cancel_payment_intent => ["payment_intent_id"]
  | POST_create_setup_intent =>
      ["payment_method_types"; "customer"; "description"; "on_behalf_of"]
  | POST_attach_payment_method_to_customer => ["payment_method_id"]
  | POST_update_payment_intent => ["payment_intent_id"; "receipt_email"]
  | POST_create_location => ["display_name"; "address"]
  end.

(** * Properties *)

(** ** Strings and objects *)

Lemma append_assoc (a b c : string) : (a ++ b) ++ c = a ++ b ++ c.
Proof. induction a as [|x a IH]; cbn; [reflexivity | now rewrite IH]. Qed.

Lemma prefix_refl (s : string) : String.prefix s s = true.
Proof.
  induction s as [|a s IH]; simpl; [reflexivity|].
  destruct (ascii_dec a a) as [_|ne]; [exact IH | now elim ne].
Qed.

Lemma prefix_append (p r : string) : String.prefix p (p ++ r) = true.
Proof.
  induction p as [|a p IH]; simpl.
  - now destruct r.
  - destruct (ascii_dec a a) as [_|ne]; [exact IH | now elim ne].
Qed.

Lemma prefix_split (p s : string) :
  String.prefix p s = true <-> exists r, s = p ++ r.
Proof.
  split.
  - revert s; induction p as [|a p IH]; intros s H.
    + exists s; reflexivity.
    + destruct s as [|b s]; simpl in H; [discriminate|].
      destruct (ascii_dec a b) as [->|]; [|discriminate].
      destruct (IH s H) as [r ->]. exists r; reflexivity.
  - intros [r ->]. apply prefix_append.
Qed.

Lemma includes_prefix (m s : string) :
  String.prefix m s = true -> includes m s = true.
Proof.
  intros H; destruct s; cbn [includes]; rewrite H; reflexivity.
Qed.

Lemma includes_append (m a s : string) :
  includes m s = true -> includes m (a ++ s) = true.
Proof.
  intros H; induction a as [|c a IH]; [exact H|].
  cbn [append includes]. rewrite IH. apply orb_true_r.
Qed.

Lemma includes_tail (m a : string) : includes m (a ++ m) = true.
Proof. apply includes_append, includes_prefix, prefix_refl. Qed.

Lemma prop_absent (o : obj) (k : string) :
  has_prop o k = false -> prop o k = JUndefined.
Proof.
  induction o as [|[k' x] o IH]; simpl; [reflexivity|].
  destruct (String.eqb k' k); simpl; [discriminate | exact IH].
Qed.

Lemma absent_falsy (o : obj) (k : string) :
  has_prop o k = false -> truthy (prop o k) = false.
Proof. intros H; rewrite (prop_absent _ _ H); reflexivity. Qed.

(** ** The credential validator *)

(** What [validateApiKey] does with the value it reads, whatever handle it
    reads it from: the first message on a falsy value, the second and the
    third on a string with the prefix [pk_] and [sk_live], a TypeError on
    a truthy value that is no string, null on any other string. *)
Lemma validateApiKey_on_the_value_read (stripe key : jsval) :
  truthy stripe = true ->
  key_read stripe = Normal key ->
  validateApiKey stripe =
    if negb (truthy key) then
      Normal (Some "Error: you provided an empty secret key. Please provide your test mode secret key.")
    else
      match key with
      | JStr s =>
          if String.prefix "pk_" s then
            Normal (Some "Error: you used a publishable key. Use your test secret key.")
          else if String.prefix "sk_live" s then
            Normal (Some "Error: you used a live mode secret key. Use your test mode secret key.")
          else Normal None
      | _ => Throw (TypeError "key.startsWith is not a function")
      end.
Proof.
  intros handle read. unfold validateApiKey. rewrite handle, read. cbn.
  destruct key as [| |[|]|n|s|l|o]; reflexivity.
Qed.

(** C5. The validator does not see the configured key.  The key chosen at
    start-up goes to [new Stripe] and nowhere else; [validateApiKey] reads
    [stripe.StripeResource.STRIPE_SECRET_KEY] off the handle.  On every
    handle that does not carry that property (the read gives [undefined],
    or throws because the handle has no [StripeResource]) the validator
    answers with the empty-key message or throws, and never returns null,
    whatever the environment holds: a well-formed test key is refused. *)
Theorem validateApiKey_misses_configured_key
    (Stripe : jsval -> jsval -> jsval) (env : environment) :
  let stripe := stripe_handle Stripe env in
  (key_read stripe = Normal JUndefined \/ exists e, key_read stripe = Throw e) ->
  validateApiKey stripe <> Normal None /\
  (key_read stripe = Normal JUndefined ->
     validateApiKey stripe =
       Normal (Some "Error: you provided an empty secret key. Please provide your test mode secret key.")) /\
  (truthy stripe = true ->
     forall e, key_read stripe = Throw e -> validateApiKey stripe = Throw e).
Proof.
  cbn zeta. generalize (stripe_handle Stripe env) as stripe.
  intros stripe missing. unfold validateApiKey.
  destruct (truthy stripe); cbn.
  - destruct missing as [read | [e read]]; rewrite read; cbn;
      repeat split; intros; try discriminate; congruence.
  - repeat split; intros; discriminate.
Qed.

(** ** The handlers, run *)

Ltac unfold_handlers :=
  unfold trace_of, serve, handler,
    root, test, register_reader, connection_token, create_payment_intent,
    capture_payment_intent, cancel_payment_intent, create_setup_intent,
    attach_payment_method_to_customer, lookupOrCreateExampleCustomer,
    update_payment_intent, list_locations, create_location,
    fail_402, try_catch, logInfo, console_log,
    res_json, res_send, res_sendFile, res_end, res_status, emit, await,
    eval, interpolate, bind, ret.

(** Splits on what the vendor answers to the next call of the goal. *)
Ltac vendor_answers :=
  match goal with
  | |- context [?f ?c ?v] =>
      match type of (f c v) with
      | ((_ + jsval) * _)%type =>
          let r := fresh "r" in
          let err := fresh "err" in
          let v' := fresh "v'" in
          let E := fresh "E" in
          destruct (f c v) as [[r|err] v'] eqn:E
      end
  end.

(** Splits on the guard of [update_payment_intent]. *)
Ltac id_given_or_not :=
  match goal with
  | |- context [negb (truthy ?x)] => destruct (truthy x)
  end.

(** The one thing a template literal throws. *)
Lemma ToString_throws (v : jsval) :
  forall e : jsval,
    ToString v = Throw e ->
    e = TypeError "Cannot convert object to primitive value".
Proof.
  induction v as [| |b|n|s|l elements|o] using jsval_array_ind;
    intros e; cbn; try discriminate.
  - destruct b; discriminate.
  - revert e. induction elements as [|x rest first_throws _ rest_throws];
      intros e; cbn; [discriminate|].
    assert (forall e', match x with
                       | JUndefined | JNull => Normal ""
                       | _ => ToString x
                       end = Throw e' ->
                       e' = TypeError "Cannot convert object to primitive value")
      as element_throws.
    { intros e'; destruct x; try discriminate; apply first_throws. }
    destruct (match x with
              | JUndefined | JNull => Normal ""
              | _ => ToString x
              end) as [s|e'].
    + destruct rest as [|y rest]; [discriminate|].
      specialize (rest_throws).
      destruct (join_rendered (map _ (y :: rest))) as [t|e''];
        [discriminate|].
      intros thrown; injection thrown as <-. apply rest_throws; reflexivity.
    + intros thrown; injection thrown as <-. apply element_throws; reflexivity.
  - destruct (has_prop o "toString"); [|discriminate].
    intros thrown; injection thrown as <-; reflexivity.
Qed.

(** What is caught after a template literal threw renders. *)
Lemma thrown_renders (v : jsval) (e : jsval) :
  ToString v = Throw e ->
  rendered_message e = Normal "Cannot convert object to primitive value".
Proof. intros thrown; rewrite (ToString_throws _ _ thrown); reflexivity. Qed.

(** Splits on whether the next template literal of the goal can be
    rendered. *)
Ltac renders :=
  match goal with
  | |- context [rendered_message ?e] =>
      let R := fresh "R" in destruct (rendered_message e) eqn:R
  | |- context [ToString ?x] =>
      let R := fresh "R" in
      destruct (ToString x) eqn:R;
      [|rewrite (thrown_renders _ _ R)]
  end.

(** Runs the handler of the goal through every answer the vendor can give
    and every way its template literals can end. *)
Ltac run_handler :=
  unfold_handlers; cbn;
  repeat first
    [ vendor_answers; cbn
    | match goal with
      | |- context [match ?l with [] => _ | _ :: _ => _ end] =>
          is_var l; destruct l; cbn
      end
    | renders; cbn ].

Lemma failure_text_includes (doing m : string) :
  includes m ("Error " ++ doing ++ "! " ++ m) = true.
Proof. do 3 apply includes_append. apply includes_prefix, prefix_refl. Qed.

Lemma failure_context_shape (r : route) (context : string) :
  failure_context r = Some context ->
  exists doing, forall m, context ++ " " ++ m = "Error " ++ doing ++ "! " ++ m.
Proof.
  destruct r; cbn; intros named; try discriminate named;
    injection named as <-;
    [ exists "registering reader" | exists "creating ConnectionToken"
    | exists "creating PaymentIntent" | exists "capturing PaymentIntent"
    | exists "canceling PaymentIntent" | exists "creating SetupIntent"
    | exists "attaching PaymentMethod" | exists "updating PaymentIntent"
    | exists "fetching Locations" | exists "creating Location" ];
    reflexivity.
Qed.

Section Rejections.

Context {V : Type} (stripe : forall c : vendor_call, V -> (reply c + jsval) * V).

(** A route with one vendor call answers the rejection of that call, when
    its message can be rendered, with 402 and the literal of the route, a
    space and the message. *)
Lemma single_call_rejected (r : route) (req : request) (v : V)
    (err : jsval) (message : string) :
  In r single_call_routes ->
  (r = POST_update_payment_intent ->
     truthy (prop (body req) "payment_intent_id") = true) ->
  rendered_message err = Normal message ->
  exists c context,
    calls_of (trace_of V stripe r req v) = [c] /\
    failure_context r = Some context /\
    (fst (stripe c v) = inr err ->
       sends_of (trace_of V stripe r req v) =
         [(402%Z, TextBody (context ++ " " ++ message))]).
Proof.
  intros listed given rendered.
  repeat (destruct listed as [<-|listed]); try destruct listed;
    unfold_handlers; try rewrite (given eq_refl); cbn;
    do 2 eexists;
    (split; [run_handler; reflexivity|]);
    (split; [reflexivity|]);
    vendor_answers; cbn; intros rejected; try discriminate rejected;
    injection rejected as ->; rewrite rendered; reflexivity.
Qed.

(** The same for the three calls of [attach_payment_method_to_customer]:
    a rejected search, a rejected creation after an empty search, and a
    rejected attach on the customer found or created. *)
Lemma attach_rejected (req : request) (v : V) (err : jsval) (message : string) :
  rendered_message err = Normal message ->
  let email := JStr "example@test.com" in
  let lookup := customers_list
    (JObj [("email", email); ("limit", JNum (Num 1 eq_refl))]) in
  let create := customers_create (JObj [("email", email)]) in
  let attach_to (customer : obj) :=
    paymentMethods_attach (prop (body req) "payment_method_id")
      (JObj [("customer", prop customer "id");
             ("expand", JArr [JStr "customer"])]) in
  let answered :=
    sends_of (trace_of V stripe POST_attach_payment_method_to_customer req v) =
      [(402%Z, TextBody ("Error attaching PaymentMethod! " ++ message))] in
  match stripe lookup v with
  | (inr e, _) => e = err -> answered
  | (inl (customer :: _), v1) =>
      fst (stripe (attach_to customer) v1) = inr err -> answered
  | (inl [], v1) =>
      match stripe create v1 with
      | (inr e, _) => e = err -> answered
      | (inl customer, v2) =>
          fst (stripe (attach_to customer) v2) = inr err -> answered
      end
  end.
Proof.
  intros rendered. cbn zeta. unfold_handlers; cbn.
  destruct (stripe (customers_list _) v) as [[[|customer rest]|e] v1]; cbn.
  - destruct (stripe (customers_create _) v1) as [[customer|e] v2]; cbn.
    + destruct (stripe (paymentMethods_attach _ _) v2) as [[paymentMethod|e] v3];
        cbn; intros rejected; [discriminate rejected|].
      injection rejected as ->. rewrite rendered; reflexivity.
    + intros ->. rewrite rendered; reflexivity.
  - destruct (stripe (paymentMethods_attach _ _) v1) as [[paymentMethod|e] v2];
      cbn; intros rejected; [discriminate rejected|].
    injection rejected as ->. rewrite rendered; reflexivity.
  - intros ->. rewrite rendered; reflexivity.
Qed.

End Rejections.

Section Properties.

Context {V : Type} (stripe : forall c : vendor_call, V -> (reply c + jsval) * V).

(** C9. Whatever the request, the vendor and the credential behind it,
    [GET /test] answers 200 with the JSON body [{"data": "hello worlds"}];
    that response is all the handler does: no vendor call is issued and the
    vendor is left as it was. *)
Theorem test_always_hello (req : request) (v : V) :
  serve V stripe GET_test req v =
    (Normal tt,
     mkWorld v 200 [EvSend 200 (JsonBody (JObj [("data", JStr "hello worlds")]))]).
Proof. reflexivity. Qed.

(** C7. [GET /list_locations] issues exactly one vendor call, the location
    list with [limit: 100]; when it resolves, the one response is 200 with
    the resolved [data] array as its JSON body, element for element in the
    vendor's order. *)
Theorem list_locations_page_and_data (req : request) (v : V) :
  let page := terminal_locations_list (JObj [("limit", JNum (Num 100 eq_refl))]) in
  let tr := trace_of V stripe GET_list_locations req v in
  calls_of tr = [page] /\
  match fst (stripe page v) with
  | inl data => sends_of tr = [(200%Z, JsonBody (JArr (map JObj data)))]
  | inr _ => True
  end.
Proof.
  run_handler; auto.
Qed.

(** C10. A [payment_intent_id] that is there but falsy (the empty string,
    0, false, null) takes the branch of a missing one: the handler logs and
    sends 400 with the text ['payment_intent_id' is required], issues no
    vendor call, leaves the vendor untouched, and does exactly what it does
    on the empty body. *)
Theorem update_payment_intent_falsy_id (req : request) (v : V) :
  truthy (prop (body req) "payment_intent_id") = false ->
  serve V stripe POST_update_payment_intent req v =
    (Normal tt,
     mkWorld v 400
       [EvLog (String "010" "'payment_intent_id' is required" ++ String "010" "");
        EvSend 400 (TextBody "'payment_intent_id' is required")]) /\
  calls_of (trace_of V stripe POST_update_payment_intent req v) = [] /\
  serve V stripe POST_update_payment_intent req v =
    serve V stripe POST_update_payment_intent {| body := [] |} v.
Proof.
  intros falsy. unfold_handlers. rewrite falsy. cbn. auto.
Qed.

(** C3, as the code has it. Without a [payment_intent_id] field the handler
    answers 400 with a plain-text message and issues no vendor call; with a
    truthy [payment_intent_id] it issues exactly one vendor call, the update
    of that intent with the [receipt_email] of the body. *)
Theorem update_payment_intent_requires_id (req : request) (v : V) :
  let tr := trace_of V stripe POST_update_payment_intent req v in
  let payment_intent_id := prop (body req) "payment_intent_id" in
  (has_prop (body req) "payment_intent_id" = false ->
     sends_of tr = [(400%Z, TextBody "'payment_intent_id' is required")] /\
     calls_of tr = []) /\
  (truthy payment_intent_id = true ->
     calls_of tr =
       [paymentIntents_update payment_intent_id
          (JObj [("receipt_email", prop (body req) "receipt_email")])]).
Proof.
  cbn zeta; split.
  - intros absent. apply absent_falsy in absent.
    unfold_handlers. rewrite absent. cbn. auto.
  - intros present. unfold_handlers. rewrite present.
    run_handler; reflexivity.
Qed.

(** C2, as the code has it. On a body that holds [amount] alone the vendor
    call carries [payment_method_types = ["card_present"]],
    [capture_method = "manual"], [currency = "gbp"] and the placeholder
    description.  On every body the handler issues one create call, and each
    of these four parameters is the caller's value when that value is
    truthy, the default when it is missing or falsy. *)
Theorem create_payment_intent_defaults (v : V) :
  (forall amount,
     calls_of (trace_of V stripe POST_create_payment_intent
                 {| body := [("amount", amount)] |} v) =
       [paymentIntents_create (JObj
          [("payment_method_types", JArr [JStr "card_present"]);
           ("capture_method", JStr "manual");
           ("amount", amount);
           ("currency", JStr "gbp");
           ("description", JStr "Example PaymentIntent");
           ("payment_method_options", JObj []);
           ("receipt_email", JUndefined)])]) /\
  (forall req, exists params,
     calls_of (trace_of V stripe POST_create_payment_intent req v) =
       [paymentIntents_create (JObj params)] /\
     forall field default, In (field, default) payment_intent_defaults ->
       prop params field =
         if truthy (prop (body req) field) then prop (body req) field
         else default).
Proof.
  split.
  - intros amount. run_handler; reflexivity.
  - intros req. eexists; split.
    + run_handler; reflexivity.
    + intros field default H. unfold js_or.
      repeat (destruct H as [H|H]; [injection H as <- <-; reflexivity|]).
      destruct H.
Qed.

(** C1. On every route that calls the vendor, when a call is rejected with
    an error [err] whose message renders as [message], the handler sends one
    response: status 402 with the plain text [Error <doing X>! <message>],
    which holds the vendor's message verbatim.  This is so for the one call
    of each single-call route ([update_payment_intent] once its id is
    truthy), and for each of the three calls of
    [attach_payment_method_to_customer]: the search, the creation after an
    empty search, and the attach. *)
Theorem vendor_failure_402 (req : request) (v : V) (err : jsval) (message : string) :
  rendered_message err = Normal message ->
  let answered (r : route) :=
    exists doing,
      let text := "Error " ++ doing ++ "! " ++ message in
      sends_of (trace_of V stripe r req v) = [(402%Z, TextBody text)] /\
      includes message text = true in
  (forall r, In r single_call_routes ->
     (r = POST_update_payment_intent ->
        truthy (prop (body req) "payment_intent_id") = true) ->
     exists c,
       calls_of (trace_of V stripe r req v) = [c] /\
       (fst (stripe c v) = inr err -> answered r)) /\
  (let email := JStr "example@test.com" in
   let lookup := customers_list
     (JObj [("email", email); ("limit", JNum (Num 1 eq_refl))]) in
   let create := customers_create (JObj [("email", email)]) in
   let attach_to (customer : obj) :=
     paymentMethods_attach (prop (body req) "payment_method_id")
       (JObj [("customer", prop customer "id");
              ("expand", JArr [JStr "customer"])]) in
   match stripe lookup v with
   | (inr e, _) => e = err -> answered POST_attach_payment_method_to_customer
   | (inl (customer :: _), v1) =>
       fst (stripe (attach_to customer) v1) = inr err ->
       answered POST_attach_payment_method_to_customer
   | (inl [], v1) =>
       match stripe create v1 with
       | (inr e, _) => e = err -> answered POST_attach_payment_method_to_customer
       | (inl customer, v2) =>
           fst (stripe (attach_to customer) v2) = inr err ->
           answered POST_attach_payment_method_to_customer
       end
   end).
Proof.
  intros rendered. cbn zeta. split.
  - intros r listed given.
    destruct (single_call_rejected stripe r req v err message listed given rendered)
      as (c & context & called & named & sent).
    destruct (failure_context_shape r context named) as [doing shape].
    exists c; split; [exact called|].
    intros rejected. exists doing. rewrite <- shape. split.
    + exact (sent rejected).
    + rewrite shape. apply failure_text_includes.
  - pose proof (attach_rejected stripe req v err message rendered) as attach.
    cbn zeta in attach.
    assert (forall tr : list (Z * payload),
      tr = [(402%Z, TextBody ("Error attaching PaymentMethod! " ++ message))] ->
      exists doing,
        tr = [(402%Z, TextBody ("Error " ++ doing ++ "! " ++ message))] /\
        includes message ("Error " ++ doing ++ "! " ++ message) = true)
      as named.
    { intros tr ->. exists "attaching PaymentMethod".
      split; [reflexivity | apply failure_text_includes]. }
    revert attach; cbn beta.
    destruct (stripe (customers_list _) v) as [[[|customer rest]|e] v1].
    + destruct (stripe (customers_create _) v1) as [[customer|e] v2];
        intros attach rejected; apply named, attach, rejected.
    + intros attach rejected; apply named, attach, rejected.
    + intros attach rejected; apply named, attach, rejected.
Qed.

(** C4. The vendor calls of [attach_payment_method_to_customer], in order.
    The first is always the customer search for the sentinel address with
    [limit: 1].  [customers.create], with that address alone, follows only
    when the search resolves to no customer.  The attach comes last, once
    the search has found a customer or the creation has resolved: it carries
    the [payment_method_id] of the body, the [id] of that customer (nothing
    of the request) as [customer], and [expand: ["customer"]].  A rejected
    search or creation ends the calls. *)
Theorem attach_lookup_then_attach (req : request) (v : V) :
  let email := JStr "example@test.com" in
  let lookup := customers_list
    (JObj [("email", email); ("limit", JNum (Num 1 eq_refl))]) in
  let create := customers_create (JObj [("email", email)]) in
  let attach_to (customer : obj) :=
    paymentMethods_attach (prop (body req) "payment_method_id")
      (JObj [("customer", prop customer "id");
             ("expand", JArr [JStr "customer"])]) in
  let calls :=
    calls_of (trace_of V stripe POST_attach_payment_method_to_customer req v) in
  match stripe lookup v with
  | (inr _, _) => calls = [lookup]
  | (inl (customer :: _), _) => calls = [lookup; attach_to customer]
  | (inl [], v1) =>
      match stripe create v1 with
      | (inr _, _) => calls = [lookup; create]
      | (inl customer, _) => calls = [lookup; create; attach_to customer]
      end
  end.
Proof.
  run_handler; congruence.
Qed.

(** C6, as the code has it. Every handler but [GET /], [GET /test] and
    [connection_token] has written a console line ahead of the one response
    it sends, on a success as on a failure; every handler has done so when
    it answers a failure (a status other than 200).  A handler that runs to
    its end has answered. *)
Theorem outcome_logged_before_response (r : route) (req : request) (v : V) :
  let tr := trace_of V stripe r req v in
  (silent_on_success r = false ->
     fst (serve V stripe r req v) = Normal tt ->
     logged_before_response tr = true) /\
  (forall status b, In (status, b) (sends_of tr) -> status <> 200%Z ->
     logged_before_response tr = true).
Proof.
  destruct r; unfold_handlers; try id_given_or_not; run_handler; split;
    try reflexivity; try discriminate;
    try (intros _ thrown; discriminate thrown);
    intros status b sent; try (now destruct sent);
    destruct sent as [sent|[]]; intros failed; injection sent as <- _;
    first [reflexivity | now elim failed].
Qed.

End Properties.

(** ** Secrets and the console *)

Section Secrecy.

Context {V1 V2 : Type}.
Variable stripe1 : forall c : vendor_call, V1 -> (reply c + jsval) * V1.
Variable stripe2 : forall c : vendor_call, V2 -> (reply c + jsval) * V2.
Variable R : V1 -> V2 -> Prop.

Hypothesis alike :
  forall c v1 v2, R v1 v2 -> answers_alike R c (stripe1 c v1) (stripe2 c v2).

Lemma same_id (o1 o2 : obj) :
  same_but_secret o1 o2 -> prop o1 "id" = prop o2 "id".
Proof. intros same; apply same; discriminate. Qed.

(** Asks both vendors the next call of the goal. *)
Ltac both_answer :=
  match goal with
  | related : R ?v1 ?v2 |- context [stripe1 ?c ?v1] =>
      let same := fresh "same" in
      pose proof (alike c v1 v2 related) as same;
      unfold answers_alike in same;
      destruct (stripe1 c v1) as [[? | ?] ?];
      destruct (stripe2 c v2) as [[? | ?] ?];
      cbn in same; destruct same as [? same];
      try contradiction; clear related; cbn
  end.

(** Finishes a pair of runs that went through the same answers. *)
Ltac same_lines :=
  try subst; repeat (renders; cbn); reflexivity.

(** C8. No console line of any handler depends on a [client_secret] or a
    token [secret] the vendor returns: served by two vendors that answer
    every call alike except for the value of these two properties, a request
    makes every handler write the same console lines, on every outcome. *)
Theorem logs_ignore_secrets (r : route) (req : request) (v1 : V1) (v2 : V2) :
  R v1 v2 ->
  logs_of (trace_of V1 stripe1 r req v1) = logs_of (trace_of V2 stripe2 r req v2).
Proof.
  intros related.
  destruct r; unfold_handlers; try id_given_or_not;
    cbn; try reflexivity; both_answer;
    try same_lines;
    try (rewrite (same_id _ _ same); same_lines).
  - (* attach_payment_method_to_customer *)
    destruct same as [|c1 c2 cs1 cs2 same_customer _]; cbn.
    + both_answer; [|same_lines].
      rewrite (same_id _ _ same).
      both_answer; same_lines.
    + rewrite (same_id _ _ same_customer).
      both_answer; same_lines.
  - (* list_locations *)
    rewrite (Forall2_length same); reflexivity.
Qed.

End Secrecy.

(** ** The handlers on concrete requests *)

(** A declined call to [create_payment_intent]: 402, and the vendor's
    message inside the body. *)
Lemma vendor_failure_402_declined :
  let req := {| body := [("amount", JNum (Num 1000 eq_refl))] |} in
  let tr := trace_of unit declining POST_create_payment_intent req tt in
  rendered_message declined = Normal "Your card was declined." /\
  exists c,
    calls_of tr = [c] /\
    (fst (declining c tt) = inr declined ->
     exists doing,
       let text := "Error " ++ doing ++ "! " ++ "Your card was declined." in
       sends_of tr = [(402%Z, TextBody text)] /\
       includes "Your card was declined." text = true).
Proof.
  cbn zeta. split; [reflexivity|].
  apply (proj1 (vendor_failure_402 declining
                  {| body := [("amount", JNum (Num 1000 eq_refl))] |} tt declined
                  "Your card was declined." eq_refl)
           POST_create_payment_intent).
  - cbn; tauto.
  - discriminate.
Defined.

(** [{"payment_intent_id": ""}] is answered like [{}]. *)
Lemma update_payment_intent_empty_id :
  let req := {| body := [("payment_intent_id", JStr "");
                         ("receipt_email", JStr "jo@example.com")] |} in
  truthy (prop (body req) "payment_intent_id") = false /\
  calls_of (trace_of nat (accepting "pi_1_secret_x") POST_update_payment_intent req 0) = [] /\
  serve nat (accepting "pi_1_secret_x") POST_update_payment_intent req 0 =
    serve nat (accepting "pi_1_secret_x") POST_update_payment_intent {| body := [] |} 0.
Proof.
  cbn zeta. split; [reflexivity|].
  apply (update_payment_intent_falsy_id (accepting "pi_1_secret_x")).
  reflexivity.
Defined.

(** C3 as stated fails: a body that supplies [payment_intent_id] as the
    empty string, with a [receipt_email], gets 400 and no update call. *)
Lemma update_payment_intent_supplied_but_refused :
  let req := {| body := [("payment_intent_id", JStr "");
                         ("receipt_email", JStr "jo@example.com")] |} in
  let tr := trace_of nat (accepting "pi_1_secret_x") POST_update_payment_intent req 0 in
  has_prop (body req) "payment_intent_id" = true /\
  calls_of tr = [] /\
  sends_of tr = [(400%Z, TextBody "'payment_intent_id' is required")].
Proof. cbn zeta. repeat split. Qed.

(** The two branches of [update_payment_intent]: the empty body, and a body
    with an id and an address. *)
Lemma update_payment_intent_requires_id_runs :
  (let tr := trace_of nat (accepting "pi_1_secret_x") POST_update_payment_intent
               {| body := [] |} 0 in
   sends_of tr = [(400%Z, TextBody "'payment_intent_id' is required")] /\
   calls_of tr = []) /\
  calls_of (trace_of nat (accepting "pi_1_secret_x") POST_update_payment_intent
              {| body := [("payment_intent_id", JStr "pi_1");
                          ("receipt_email", JStr "jo@example.com")] |} 0) =
    [paymentIntents_update (JStr "pi_1")
       (JObj [("receipt_email", JStr "jo@example.com")])].
Proof.
  split.
  - apply (update_payment_intent_requires_id (accepting "pi_1_secret_x")
             {| body := [] |} 0).
    reflexivity.
  - apply (update_payment_intent_requires_id (accepting "pi_1_secret_x")
             {| body := [("payment_intent_id", JStr "pi_1");
                         ("receipt_email", JStr "jo@example.com")] |} 0).
    reflexivity.
Defined.

(** C2 as stated fails: a body that supplies [description] as the empty
    string has the placeholder passed to the vendor in its place. *)
Lemma create_payment_intent_supplied_but_defaulted :
  let req := {| body := [("amount", JNum (Num 1000 eq_refl));
                         ("description", JStr "")] |} in
  has_prop (body req) "description" = true /\
  prop (body req) "description" = JStr "" /\
  exists params,
    calls_of (trace_of nat (accepting "pi_1_secret_x") POST_create_payment_intent req 0) =
      [paymentIntents_create (JObj params)] /\
    prop params "description" = JStr "Example PaymentIntent" /\
    prop params "description" <> prop (body req) "description".
Proof.
  cbn zeta. do 2 (split; [reflexivity|]).
  eexists; split; [reflexivity|]. split; [reflexivity | discriminate].
Qed.

(** A caller's currency goes through; the capture method it left out is
    defaulted. *)
Lemma create_payment_intent_defaults_runs :
  let req := {| body := [("amount", JNum (Num 1000 eq_refl));
                         ("currency", JStr "usd")] |} in
  exists params,
    calls_of (trace_of nat (accepting "pi_1_secret_x") POST_create_payment_intent req 0) =
      [paymentIntents_create (JObj params)] /\
    prop params "currency" = JStr "usd" /\
    prop params "capture_method" = JStr "manual".
Proof.
  cbn zeta.
  destruct (proj2 (create_payment_intent_defaults (accepting "pi_1_secret_x") 0)
              {| body := [("amount", JNum (Num 1000 eq_refl));
                          ("currency", JStr "usd")] |})
    as [params [called defaulted]].
  exists params; split; [exact called|]. split.
  - apply (defaulted "currency" (JStr "gbp")). cbn; auto.
  - apply (defaulted "capture_method" (JStr "manual")). cbn; auto.
Defined.

(** A test deployment with a well-formed test key: against a handle that
    exposes [StripeResource] the validator reports an empty key, against a
    handle without it the validator throws.  Neither accepts the key. *)
Lemma validateApiKey_on_test_key :
  configured_key test_environment = JStr "sk_test_51H" /\
  validateApiKey (stripe_handle Stripe_with_resource test_environment) =
    Normal (Some "Error: you provided an empty secret key. Please provide your test mode secret key.") /\
  validateApiKey (stripe_handle Stripe_sealed test_environment) =
    Throw (TypeError "Cannot read properties of undefined (reading 'STRIPE_SECRET_KEY')") /\
  validateApiKey (stripe_handle Stripe_with_resource test_environment) <> Normal None /\
  validateApiKey (stripe_handle Stripe_sealed test_environment) <> Normal None.
Proof.
  split; [reflexivity|]. split; [|split; [|split]].
  - apply (validateApiKey_misses_configured_key Stripe_with_resource test_environment);
      [left; reflexivity | reflexivity].
  - apply (validateApiKey_misses_configured_key Stripe_sealed test_environment);
      [right; eexists; reflexivity | reflexivity | reflexivity].
  - apply (validateApiKey_misses_configured_key Stripe_with_resource test_environment).
    left; reflexivity.
  - apply (validateApiKey_misses_configured_key Stripe_sealed test_environment).
    right; eexists; reflexivity.
Defined.

(** C6 as stated fails: a connection token is handed out, and [GET /test]
    answers, without a console line. *)
Lemma connection_token_success_not_logged :
  let tr := trace_of nat (accepting "pst_test_x") POST_connection_token {| body := [] |} 0 in
  sends_of tr = [(200%Z, JsonBody (JObj [("secret", JStr "pst_test_x")]))] /\
  rejections_of tr = [] /\
  logs_of tr = [] /\
  logged_before_response tr = false /\
  logs_of (trace_of nat (accepting "pst_test_x") GET_test {| body := [] |} 0) = [].
Proof. cbn zeta. repeat split. Qed.

(** A created intent and a declined token are both logged before they are
    answered. *)
Lemma outcome_logged_before_response_runs :
  logged_before_response
    (trace_of nat (accepting "pi_1_secret_x") POST_create_payment_intent
       {| body := [("amount", JNum (Num 1000 eq_refl))] |} 0) = true /\
  logged_before_response
    (trace_of unit declining POST_connection_token {| body := [] |} tt) = true.
Proof.
  split.
  - apply (outcome_logged_before_response (accepting "pi_1_secret_x")
             POST_create_payment_intent); reflexivity.
  - apply (proj2 (outcome_logged_before_response declining
             POST_connection_token {| body := [] |} tt)
             402%Z (TextBody "Error creating ConnectionToken! Your card was declined.")).
    + left; reflexivity.
    + discriminate.
Defined.

(** Two accepting vendors that hand out different secrets answer alike. *)
Lemma accepting_alike (s1 s2 : string) (c : vendor_call) (n1 n2 : nat) :
  n1 = n2 -> answers_alike eq c (accepting s1 c n1) (accepting s2 c n2).
Proof.
  intros <-. unfold answers_alike.
  destruct c; cbn -[String.eqb]; (split; [reflexivity|]);
    try (destruct n1; repeat constructor; intros k; reflexivity);
    intros k not_client_secret not_secret; cbn -[String.eqb];
    repeat match goal with
           | |- context [String.eqb ?a k] =>
               destruct (String.eqb_spec a k); try congruence
           end.
Qed.

(** The console lines of a payment are the same whichever secret the
    vendor hands out. *)
Lemma logs_ignore_secrets_runs :
  let req := {| body := [("amount", JNum (Num 1000 eq_refl))] |} in
  logs_of (trace_of nat (accepting "pi_1_secret_aaa") POST_create_payment_intent req 0) =
  logs_of (trace_of nat (accepting "pi_1_secret_bbb") POST_create_payment_intent req 0).
Proof.
  cbn zeta.
  apply (logs_ignore_secrets (accepting "pi_1_secret_aaa") (accepting "pi_1_secret_bbb") eq
           (accepting_alike "pi_1_secret_aaa" "pi_1_secret_bbb")).
  reflexivity.
Defined.

(** With no sentinel customer on record the handler searches, creates and
    attaches, in that order; with one on record it searches and attaches. *)
Example attach_runs :
  let req := {| body := [("payment_method_id", JStr "pm_1");
                         ("customer", JStr "cus_other")] |} in
  let lookup := customers_list
    (JObj [("email", JStr "example@test.com"); ("limit", JNum (Num 1 eq_refl))]) in
  let attach := paymentMethods_attach (JStr "pm_1")
    (JObj [("customer", JStr "cus_1"); ("expand", JArr [JStr "customer"])]) in
  calls_of (trace_of nat (accepting "x") POST_attach_payment_method_to_customer req 0) =
    [lookup; customers_create (JObj [("email", JStr "example@test.com")]); attach] /\
  calls_of (trace_of nat (accepting "x") POST_attach_payment_method_to_customer req 1) =
    [lookup; attach] /\
  calls_of (trace_of unit declining POST_attach_payment_method_to_customer req tt) =
    [lookup].
Proof. cbn zeta. repeat split. Qed.

(** The two locations of the accepting vendor come back as they are. *)
Example list_locations_runs :
  sends_of (trace_of nat (accepting "x") GET_list_locations {| body := [] |} 0) =
    [(200%Z, JsonBody (JArr
        [JObj [("id", JStr "tml_1"); ("display_name", JStr "Till 1")];
         JObj [("id", JStr "tml_2"); ("display_name", JStr "Till 2")]]))] /\
  logs_of (trace_of nat (accepting "x") GET_list_locations {| body := [] |} 0) =
    [String "010" "2 Locations fetched" ++ String "010" ""].
Proof. split; reflexivity. Qed.

(** An id that cannot be rendered: the update goes through at the vendor,
    the console line throws inside [try], and the caller is told 402. *)
Example unrenderable_id_runs :
  let req := {| body := [("payment_intent_id", JObj [("toString", JStr "x")])] |} in
  let tr := trace_of nat (accepting "x") POST_update_payment_intent req 0 in
  rejections_of tr = [] /\
  sends_of tr =
    [(402%Z, TextBody "Error updating PaymentIntent! Cannot convert object to primitive value")].
Proof. cbn zeta. split; reflexivity. Qed.

(** A rejection with nothing to read a message from: the status is set,
    the handler throws out of its [catch], nothing is logged or sent. *)
Example null_rejection_runs :
  let run := serve unit (rejecting JNull) POST_connection_token {| body := [] |} tt in
  fst run =
    Throw (TypeError "Cannot read properties of null (reading 'message')") /\
  statusCode (snd run) = 402%Z /\
  sends_of (trace (snd run)) = [] /\
  logs_of (trace (snd run)) = [].
Proof. cbn zeta. repeat split. Qed.

(** ** Every handler, every outcome *)

Lemma rejection_is_vendor_event (before after : list event) (err : jsval) :
  no_vendor_event (before ++ EvRejected err :: after) = false.
Proof.
  induction before as [|e before IH]; [reflexivity|].
  destruct e; cbn; auto.
Qed.

Lemma stops_at_rejection_split (tr before after : list event) (err : jsval) :
  stops_at_rejection tr = true ->
  tr = (before ++ EvRejected err :: after)%list ->
  rejections_of before = [] /\ no_vendor_event after = true.
Proof.
  revert tr; induction before as [|e before IH]; intros tr stops ->.
  - split; [reflexivity | exact stops].
  - destruct e; cbn in stops.
    + exact (IH _ stops eq_refl).
    + rewrite rejection_is_vendor_event in stops; discriminate stops.
    + exact (IH _ stops eq_refl).
    + exact (IH _ stops eq_refl).
Qed.

Lemma no_vendor_event_none (tr : list event) :
  no_vendor_event tr = true -> calls_of tr = [] /\ rejections_of tr = [].
Proof.
  induction tr as [|e tr IH]; [split; reflexivity|].
  destruct e; cbn; intros quiet; try discriminate quiet; exact (IH quiet).
Qed.

Section Coverage.

Context {V : Type} (stripe : forall c : vendor_call, V -> (reply c + jsval) * V).

(** X1. A handler answers at most once.  When it runs to its end it has
    sent exactly one response, as the last thing it did and with the status
    that was set.  It can only end by throwing out of a [catch] block: then
    one vendor call was rejected with an error whose message cannot be read
    or rendered, which is what it throws, and nothing was logged or sent. *)
Theorem handler_answers_once (r : route) (req : request) (v : V) :
  match fst (serve V stripe r req v) with
  | Normal _ =>
      exists before status b,
        trace_of V stripe r req v = (before ++ [EvSend status b])%list /\
        sends_of before = [] /\
        statusCode (snd (serve V stripe r req v)) = status
  | Throw thrown =>
      sends_of (trace_of V stripe r req v) = [] /\
      logs_of (trace_of V stripe r req v) = [] /\
      exists err,
        rejections_of (trace_of V stripe r req v) = [err] /\
        rendered_message err = Throw thrown
  end.
Proof.
  destruct r; unfold_handlers; try id_given_or_not; run_handler;
    first
      [ match goal with
        | |- exists before status b, ?tr = _ /\ _ =>
            exists (removelast tr); do 2 eexists; repeat split
        end
      | repeat split; eexists; split; [reflexivity | assumption] ].
Qed.

(** X2. The status of the response a handler sends tells the outcome: it is
    200, 400 or 402; 400 exactly when [update_payment_intent] got no truthy
    id; a request with a rejected vendor call is answered 402, so that a 200
    means every call resolved.  A 400 or 402 carries text, a 200 carries
    JSON, or the landing page on [GET /]. *)
Theorem status_by_outcome (r : route) (req : request) (v : V) :
  let tr := trace_of V stripe r req v in
  fst (serve V stripe r req v) = Normal tt ->
  exists status b,
    sends_of tr = [(status, b)] /\
    (status = 200%Z \/ status = 400%Z \/ status = 402%Z) /\
    (status = 400%Z <->
       r = POST_update_payment_intent /\
       truthy (prop (body req) "payment_intent_id") = false) /\
    (rejections_of tr <> [] -> status = 402%Z) /\
    (status = 200%Z -> rejections_of tr = []) /\
    match b with
    | TextBody _ => status <> 200%Z
    | JsonBody _ => status = 200%Z /\ r <> GET_root
    | FileBody _ => status = 200%Z /\ r = GET_root
    end.
Proof.
  destruct r; unfold_handlers; try id_given_or_not; run_handler;
    intros ended; try discriminate ended;
    do 2 eexists; (split; [reflexivity|]);
    repeat split; try discriminate; auto;
    try (intros [? ?]; discriminate);
    try (intros contra; now elim contra).
Qed.

(** X3. A rejection ends the contact with the vendor: no call is retried and
    no other call is issued after it, and it is the only rejection of the
    request. *)
Theorem rejection_ends_vendor_contact (r : route) (req : request) (v : V)
    (before after : list event) (err : jsval) :
  trace_of V stripe r req v = (before ++ EvRejected err :: after)%list ->
  rejections_of before = [] /\ calls_of after = [] /\ rejections_of after = [].
Proof.
  intros split_at.
  assert (stops_at_rejection (trace_of V stripe r req v) = true) as stops.
  { clear split_at.
    destruct r; unfold_handlers; try id_given_or_not; run_handler; reflexivity. }
  destruct (stops_at_rejection_split _ _ _ _ stops split_at) as [none quiet].
  split; [exact none | exact (no_vendor_event_none _ quiet)].
Qed.

(** X4. How many vendor calls a request costs: none on [GET /] and
    [GET /test]; one on [update_payment_intent] when the id is truthy, none
    otherwise; one to three on [attach_payment_method_to_customer]; exactly
    one on every other route, whatever the body holds or lacks. *)
Theorem vendor_call_count (r : route) (req : request) (v : V) :
  let n := length (calls_of (trace_of V stripe r req v)) in
  match r with
  | GET_root | GET_test => n = 0
  | POST_update_payment_intent =>
      n = if truthy (prop (body req) "payment_intent_id") then 1 else 0
  | POST_attach_payment_method_to_customer => 1 <= n <= 3
  | _ => n = 1
  end.
Proof.
  destruct r; unfold_handlers; try id_given_or_not; run_handler;
    try reflexivity; lia.
Qed.

(** X5. Each route fails in its own words.  When the vendor rejects a call
    with an error whose message renders as [message], the answer is 402 with
    the literal of the route's [catch] block, a space and [message]: for the
    one call of a single-call route, and for the search, the creation and
    the attach of [attach_payment_method_to_customer].  No two routes share
    a literal; the landing page and the health check have none and call no
    vendor. *)
Theorem failure_text_by_route (req : request) (v : V) (err : jsval) (message : string) :
  rendered_message err = Normal message ->
  (forall r, In r single_call_routes ->
     (r = POST_update_payment_intent ->
        truthy (prop (body req) "payment_intent_id") = true) ->
     exists c context,
       calls_of (trace_of V stripe r req v) = [c] /\
       failure_context r = Some context /\
       (fst (stripe c v) = inr err ->
          sends_of (trace_of V stripe r req v) =
            [(402%Z, TextBody (context ++ " " ++ message))])) /\
  (let email := JStr "example@test.com" in
   let lookup := customers_list
     (JObj [("email", email); ("limit", JNum (Num 1 eq_refl))]) in
   let create := customers_create (JObj [("email", email)]) in
   let attach_to (customer : obj) :=
     paymentMethods_attach (prop (body req) "payment_method_id")
       (JObj [("customer", prop customer "id");
              ("expand", JArr [JStr "customer"])]) in
   let answered :=
     sends_of (trace_of V stripe POST_attach_payment_method_to_customer req v) =
       [(402%Z, TextBody ("Error attaching PaymentMethod! " ++ message))] in
   match stripe lookup v with
   | (inr e, _) => e = err -> answered
   | (inl (customer :: _), v1) =>
       fst (stripe (attach_to customer) v1) = inr err -> answered
   | (inl [], v1) =>
       match stripe create v1 with
       | (inr e, _) => e = err -> answered
       | (inl customer, v2) =>
           fst (stripe (attach_to customer) v2) = inr err -> answered
       end
   end) /\
  (forall r r', failure_context r = failure_context r' ->
     failure_context r <> None -> r = r') /\
  (forall r, failure_context r = None ->
     calls_of (trace_of V stripe r req v) = []).
Proof.
  intros rendered. split; [|split; [|split]].
  - intros r listed given.
    exact (single_call_rejected stripe r req v err message listed given rendered).
  - exact (attach_rejected stripe req v err message rendered).
  - intros r r' same named.
    destruct r; try (now elim named); destruct r'; try discriminate same;
      reflexivity.
  - intros r unnamed. destruct r; try discriminate unnamed; reflexivity.
Qed.

(** X6. What the caller is told on a failure is what the console shows: when
    the response is text (a 400 or a 402), the request wrote exactly one
    console line, that text between two newlines. *)
Theorem text_response_is_logged_line (r : route) (req : request) (v : V)
    (status : Z) (text : string) :
  In (status, TextBody text) (sends_of (trace_of V stripe r req v)) ->
  logs_of (trace_of V stripe r req v) =
    [String "010" text ++ String "010" ""].
Proof.
  destruct r; unfold_handlers; try id_given_or_not; run_handler;
    intros sent; try (now destruct sent);
    destruct sent as [sent|[]]; try discriminate sent;
    injection sent as _ <-; reflexivity.
Qed.

(** X7. The five intent routes answer a resolved call alike.  When the id
    they put in their console line can be rendered, the answer is 200 with
    the JSON object [{intent, secret}] holding the [id] and the
    [client_secret] of the object the vendor resolved to, and nothing else
    of it.  When it cannot, the line throws inside [try] and the answer is a
    402, although the vendor did what was asked. *)
Theorem intent_routes_relay_id_and_secret (r : route) (req : request) (v : V) :
  In r [POST_create_payment_intent; POST_capture_payment_intent;
        POST_cancel_payment_intent; POST_create_setup_intent;
        POST_update_payment_intent] ->
  (r = POST_update_payment_intent ->
     truthy (prop (body req) "payment_intent_id") = true) ->
  exists c,
    calls_of (trace_of V stripe r req v) = [c] /\
    forall o, resolved_object c (fst (stripe c v)) = Some o ->
      match ToString (logged_id r req o) with
      | Normal _ =>
          sends_of (trace_of V stripe r req v) =
            [(200%Z, JsonBody (JObj [("intent", prop o "id");
                                     ("secret", prop o "client_secret")]))]
      | Throw _ =>
          exists text,
            sends_of (trace_of V stripe r req v) = [(402%Z, TextBody text)]
      end.
Proof.
  intros listed given.
  repeat (destruct listed as [<-|listed]); try destruct listed;
    unfold_handlers; try rewrite (given eq_refl); cbn;
    eexists;
    (split; [run_handler; reflexivity|]);
    intros o; vendor_answers; cbn; intros resolved;
    try discriminate resolved; injection resolved as <-;
    renders; cbn; first [reflexivity | eexists; reflexivity].
Qed.

(** X8. A registered reader and a created location go back to the caller
    as the vendor resolved them, whole, when their [id] can be rendered for
    the console line, and are answered 402 when it cannot; of a connection
    token only [secret] goes back. *)
Theorem resource_routes_relay_object (req : request) (v : V) :
  (forall r, In r [POST_register_reader; POST_create_location] ->
     exists c,
       calls_of (trace_of V stripe r req v) = [c] /\
       forall o, resolved_object c (fst (stripe c v)) = Some o ->
         match ToString (prop o "id") with
         | Normal _ =>
             sends_of (trace_of V stripe r req v) = [(200%Z, JsonBody (JObj o))]
         | Throw _ =>
             exists text,
               sends_of (trace_of V stripe r req v) = [(402%Z, TextBody text)]
         end) /\
  (forall o, fst (stripe terminal_connectionTokens_create v) = inl o ->
     sends_of (trace_of V stripe POST_connection_token req v) =
       [(200%Z, JsonBody (JObj [("secret", prop o "secret")]))]).
Proof.
  split.
  - intros r listed.
    repeat (destruct listed as [<-|listed]); try destruct listed;
      unfold_handlers; cbn; eexists;
      (split; [run_handler; reflexivity|]);
      intros o; vendor_answers; cbn; intros resolved;
      try discriminate resolved; injection resolved as <-;
      renders; cbn; first [reflexivity | eexists; reflexivity].
  - intros o. unfold_handlers; cbn. vendor_answers; cbn; intros resolved;
      first [discriminate resolved | injection resolved as <-; reflexivity].
Qed.

(** X9. A handler looks at the properties of the body listed for its route
    and at nothing else: two bodies that agree on them are served alike,
    down to the last event, by any vendor. *)
Theorem handlers_read_only_their_fields (r : route) (req1 req2 : request) (v : V) :
  (forall k, In k (fields_read r) -> prop (body req1) k = prop (body req2) k) ->
  serve V stripe r req1 v = serve V stripe r req2 v.
Proof.
  intros agree.
  destruct r; unfold_handlers; cbn in agree;
    repeat match goal with
           | |- context [prop (body req1) ?k] =>
               rewrite (agree k) by (cbn; tauto)
           end;
    reflexivity.
Qed.

(** X10. Of the body of [create_payment_intent], [amount] and
    [receipt_email] reach the vendor as they are, missing or falsy included,
    with no default and no check; [payment_method_options] is replaced by
    the empty object when it is missing or falsy. *)
Theorem create_payment_intent_undefaulted_fields (req : request) (v : V) :
  exists params,
    calls_of (trace_of V stripe POST_create_payment_intent req v) =
      [paymentIntents_create (JObj params)] /\
    prop params "amount" = prop (body req) "amount" /\
    prop params "receipt_email" = prop (body req) "receipt_email" /\
    prop params "payment_method_options" =
      (if truthy (prop (body req) "payment_method_options")
       then prop (body req) "payment_method_options" else JObj []) /\
    (has_prop (body req) "amount" = false -> prop params "amount" = JUndefined) /\
    map fst params =
      ["payment_method_types"; "capture_method"; "amount"; "currency";
       "description"; "payment_method_options"; "receipt_email"].
Proof.
  eexists; split.
  - run_handler; reflexivity.
  - repeat split. intros absent; cbn. apply prop_absent, absent.
Qed.

(** X11. [create_setup_intent] defaults [payment_method_types] alone: it is
    the caller's when truthy, [["card_present"]] otherwise.  [customer],
    [description] and [on_behalf_of] reach the vendor as the body has them,
    so that an empty description stays empty here. *)
Theorem create_setup_intent_params (req : request) (v : V) :
  exists params,
    calls_of (trace_of V stripe POST_create_setup_intent req v) =
      [setupIntents_create (JObj params)] /\
    prop params "payment_method_types" =
      (if truthy (prop (body req) "payment_method_types")
       then prop (body req) "payment_method_types"
       else JArr [JStr "card_present"]) /\
    (forall k, In k ["customer"; "description"; "on_behalf_of"] ->
       prop params k = prop (body req) k) /\
    map fst params =
      ["payment_method_types"; "customer"; "description"; "on_behalf_of"].
Proof.
  eexists; split.
  - run_handler; reflexivity.
  - repeat split. intros k listed.
    repeat (destruct listed as [<-|listed]; [reflexivity|]). destruct listed.
Qed.

(** X12. When the search of [attach_payment_method_to_customer] finds a
    customer, or finds none and the creation resolves to one, and the attach
    on that customer resolves to a payment method, the caller gets 200 with
    that payment method as the vendor resolved it, and the one console line
    names the [id] of that customer (provided the id can be rendered). *)
Theorem attach_relays_payment_method (req : request) (v : V) :
  let tr := trace_of V stripe POST_attach_payment_method_to_customer req v in
  let email := JStr "example@test.com" in
  let lookup := customers_list
    (JObj [("email", email); ("limit", JNum (Num 1 eq_refl))]) in
  let create := customers_create (JObj [("email", email)]) in
  let attach_to (customer : obj) :=
    paymentMethods_attach (prop (body req) "payment_method_id")
      (JObj [("customer", prop customer "id");
             ("expand", JArr [JStr "customer"])]) in
  let relayed (customer : obj) (answer : obj + jsval) :=
    forall paymentMethod id,
      answer = inl paymentMethod ->
      ToString (prop customer "id") = Normal id ->
      sends_of tr = [(200%Z, JsonBody (JObj paymentMethod))] /\
      logs_of tr =
        [String "010" ("Attached PaymentMethod to Customer: " ++ id)
           ++ String "010" ""] in
  match stripe lookup v with
  | (inl (customer :: _), v1) =>
      relayed customer (fst (stripe (attach_to customer) v1))
  | (inl [], v1) =>
      match stripe create v1 with
      | (inl customer, v2) =>
          relayed customer (fst (stripe (attach_to customer) v2))
      | (inr _, _) => True
      end
  | (inr _, _) => True
  end.
Proof.
  cbn zeta. unfold_handlers; cbn.
  destruct (stripe (customers_list _) v) as [[[|customer rest]|e] v1];
    cbn; trivial.
  - destruct (stripe (customers_create _) v1) as [[customer|e] v2];
      cbn; trivial.
    destruct (stripe (paymentMethods_attach _ _) v2) as [[attached|e] v3];
      cbn; intros paymentMethod id resolved rendered;
      [|discriminate resolved].
    injection resolved as <-. rewrite rendered. cbn. split; reflexivity.
  - destruct (stripe (paymentMethods_attach _ _) v1) as [[attached|e] v2];
      cbn; intros paymentMethod id resolved rendered;
      [|discriminate resolved].
    injection resolved as <-. rewrite rendered. cbn. split; reflexivity.
Qed.

End Coverage.

(** ** The validator on the value it reads *)

(** X14. [validateApiKey] decides on the value of
    [stripe.StripeResource.STRIPE_SECRET_KEY] alone.  On a handle where that
    read gives [key]: a falsy [key] gets the empty-key message, a string
    with the prefix [pk_] the publishable-key message, a string with the
    prefix [sk_live] the live-key message; null is returned exactly for a
    non-empty string with neither prefix; a truthy [key] that is no string
    makes [key.startsWith] throw. *)
Theorem validateApiKey_decides_on_value_read (stripe key : jsval) :
  truthy stripe = true ->
  key_read stripe = Normal key ->
  (truthy key = false ->
     validateApiKey stripe =
       Normal (Some "Error: you provided an empty secret key. Please provide your test mode secret key.")) /\
  (forall rest, key = JStr ("pk_" ++ rest) ->
     validateApiKey stripe =
       Normal (Some "Error: you used a publishable key. Use your test secret key.")) /\
  (forall rest, key = JStr ("sk_live" ++ rest) ->
     validateApiKey stripe =
       Normal (Some "Error: you used a live mode secret key. Use your test mode secret key.")) /\
  (validateApiKey stripe = Normal None <->
     exists s, key = JStr s /\ s <> "" /\
       (~ exists rest, s = "pk_" ++ rest) /\
       (~ exists rest, s = "sk_live" ++ rest)) /\
  (truthy key = true -> (forall s, key <> JStr s) ->
     validateApiKey stripe = Throw (TypeError "key.startsWith is not a function")).
Proof.
  intros handle read.
  rewrite (validateApiKey_on_the_value_read stripe key handle read).
  repeat split.
  - intros falsy; rewrite falsy; reflexivity.
  - intros rest ->. pose proof (prefix_append "pk_" rest) as publishable.
    cbn in publishable |- *. rewrite publishable. reflexivity.
  - intros rest ->. pose proof (prefix_append "sk_live" rest) as live.
    cbn in live |- *. rewrite live. reflexivity.
  - destruct key as [| |[|]|n|s|l|o]; cbn; try discriminate.
    + destruct (num_value n =? 0)%Z; discriminate.
    + destruct (String.eqb_spec s "") as [->|nonempty]; cbn; [discriminate|].
      destruct (String.prefix "pk_" s) eqn:publishable; [discriminate|].
      destruct (String.prefix "sk_live" s) eqn:live; [discriminate|].
      intros _. exists s. repeat split; trivial.
      * intros [rest same].
        rewrite (proj2 (prefix_split "pk_" s)) in publishable;
          [discriminate | exists rest; exact same].
      * intros [rest same].
        rewrite (proj2 (prefix_split "sk_live" s)) in live;
          [discriminate | exists rest; exact same].
  - intros (s & -> & nonempty & not_publishable & not_live). cbn.
    destruct (String.eqb_spec s "") as [->|_]; [now elim nonempty|]. cbn.
    destruct (String.prefix "pk_" s) eqn:publishable.
    { apply prefix_split in publishable. now elim not_publishable. }
    destruct (String.prefix "sk_live" s) eqn:live; [|reflexivity].
    apply prefix_split in live. now elim not_live.
  - intros is_truthy not_string. rewrite is_truthy. cbn.
    destruct key; try reflexivity. now elim (not_string s).
Qed.

(** ** The sentinel customer across requests *)

Section SentinelCustomer.

Context {V : Type} (stripe : forall c : vendor_call, V -> (reply c + jsval) * V).

(** [known v]: the vendor in state [v] has a customer under the sentinel
    address. *)
Variable known : V -> Prop.

(** No call makes the vendor forget the customer. *)
Hypothesis kept : forall c v, known v -> known (snd (stripe c v)).

(** The search and the vendor's records agree. *)
Hypothesis found_when_known :
  forall v, known v ->
    fst (stripe (customers_list
      (JObj [("email", JStr "example@test.com");
             ("limit", JNum (Num 1 eq_refl))])) v) <> inl [].

Hypothesis known_when_found :
  forall v customer rest,
    fst (stripe (customers_list
      (JObj [("email", JStr "example@test.com");
             ("limit", JNum (Num 1 eq_refl))])) v) =
      inl (customer :: rest) ->
    known v.

(** A creation that resolves leaves the customer on record. *)
Hypothesis known_once_created :
  forall v customer,
    fst (stripe (customers_create (JObj [("email", JStr "example@test.com")])) v) =
      inl customer ->
    known (snd (stripe (customers_create (JObj [("email", JStr "example@test.com")])) v)).

(** Asks the vendor the next call of the goal, keeping track of [known]. *)
Ltac known_answer :=
  match goal with
  | on_record : known ?v |- context [stripe ?c ?v] =>
      let still := fresh "on_record" in
      pose proof (kept c v on_record) as still;
      destruct (stripe c v) as [[? | ?] ?]; cbn in still |- *; clear on_record
  end.

(** X13. Against a vendor that keeps its customers and whose search reflects
    them, the sentinel customer is created once.  Every handler leaves it on
    record; a request to [attach_payment_method_to_customer] that meets no
    rejection leaves it on record; and once it is on record no such request
    issues [customers.create] again. *)
Theorem sentinel_customer_created_once :
  (forall r req v, known v -> known (vendor (snd (serve V stripe r req v)))) /\
  (forall req v,
     rejections_of (trace_of V stripe POST_attach_payment_method_to_customer req v) = [] ->
     known (vendor (snd (serve V stripe POST_attach_payment_method_to_customer req v)))) /\
  (forall req v params, known v ->
     ~ In (customers_create params)
          (calls_of (trace_of V stripe POST_attach_payment_method_to_customer req v))).
Proof.
  split; [|split].
  - intros r req v on_record.
    destruct r; unfold_handlers; try id_given_or_not; cbn; trivial;
      repeat first
        [ known_answer
        | match goal with
          | |- context [match ?l with [] => _ | _ :: _ => _ end] =>
              is_var l; destruct l; cbn
          end
        | renders; cbn ];
      trivial.
  - intros req v. unfold_handlers; cbn.
    pose proof (known_when_found v) as found.
    pose proof (kept (customers_list
      (JObj [("email", JStr "example@test.com");
             ("limit", JNum (Num 1 eq_refl))])) v)
      as still.
    pose proof (known_once_created) as created.
    destruct (stripe (customers_list _) v) as [[[|customer rest]|err] v1];
      cbn in found, still |- *.
    + specialize (created v1).
      destruct (stripe (customers_create _) v1) as [[customer|err] v2];
        cbn in created |- *.
      * specialize (created _ eq_refl).
        intros _. known_answer; repeat (renders; cbn); trivial.
      * repeat (renders; cbn); discriminate.
    + specialize (still (found _ _ eq_refl)).
      intros _. known_answer; repeat (renders; cbn); trivial.
    + repeat (renders; cbn); discriminate.
  - intros req v params on_record. unfold_handlers; cbn.
    pose proof (found_when_known v on_record) as found.
    destruct (stripe (customers_list _) v) as [[[|customer rest]|err] v1];
      cbn in found |- *.
    + now elim found.
    + destruct (stripe (paymentMethods_attach _ _) v1) as [[?|?] ?]; cbn;
        repeat (renders; cbn);
        intros [H|[H|[]]]; discriminate H.
    + repeat (renders; cbn); intros [H|[]]; discriminate H.
Qed.

End SentinelCustomer.

(** ** More runs on concrete requests *)

(** A health check runs to its end and answers 200 with JSON. *)
Lemma status_by_outcome_runs :
  exists status b,
    sends_of (trace_of nat (accepting "x") GET_test {| body := [] |} 0) = [(status, b)] /\
    status = 200%Z /\ b = JsonBody (JObj [("data", JStr "hello worlds")]).
Proof.
  destruct (status_by_outcome (accepting "x") GET_test {| body := [] |} 0 eq_refl)
    as (status & b & sent & _).
  exists status, b. split; [exact sent|].
  cbn in sent. injection sent as <- <-. split; reflexivity.
Defined.

(** A declined payment: one call, its rejection, then the console line and
    the response, and nothing of the vendor after the rejection. *)
Lemma rejection_ends_vendor_contact_declined :
  let req := {| body := [("amount", JNum (Num 1000 eq_refl))] |} in
  let text := "Error creating PaymentIntent! Your card was declined." in
  let before := [EvCall (paymentIntents_create (JObj
       [("payment_method_types", JArr [JStr "card_present"]);
        ("capture_method", JStr "manual");
        ("amount", JNum (Num 1000 eq_refl));
        ("currency", JStr "gbp");
        ("description", JStr "Example PaymentIntent");
        ("payment_method_options", JObj []);
        ("receipt_email", JUndefined)]))] in
  let after := [EvLog (String "010" text ++ String "010" "");
                EvSend 402 (TextBody text)] in
  trace_of unit declining POST_create_payment_intent req tt =
    (before ++ EvRejected declined :: after)%list /\
  rejections_of before = [] /\ calls_of after = [] /\ rejections_of after = [].
Proof.
  cbn zeta. split; [reflexivity|].
  apply (rejection_ends_vendor_contact declining POST_create_payment_intent
           {| body := [("amount", JNum (Num 1000 eq_refl))] |} tt _ _ declined).
  reflexivity.
Defined.

(** A declined capture is told in the literal of the capture route. *)
Lemma failure_text_by_route_declined :
  exists c context,
    calls_of (trace_of unit declining POST_capture_payment_intent
                {| body := [("payment_intent_id", JStr "pi_1")] |} tt) = [c] /\
    failure_context POST_capture_payment_intent = Some context /\
    (fst (declining c tt) = inr declined ->
     sends_of (trace_of unit declining POST_capture_payment_intent
                 {| body := [("payment_intent_id", JStr "pi_1")] |} tt) =
       [(402%Z, TextBody (context ++ " " ++ "Your card was declined."))]).
Proof.
  apply (proj1 (failure_text_by_route declining
                  {| body := [("payment_intent_id", JStr "pi_1")] |} tt declined
                  "Your card was declined." eq_refl)
           POST_capture_payment_intent).
  - cbn; tauto.
  - discriminate.
Defined.

(** The text of a declined capture is the one line on the console. *)
Lemma text_response_is_logged_line_declined :
  let req := {| body := [("payment_intent_id", JStr "pi_1")] |} in
  let text := "Error capturing PaymentIntent! Your card was declined." in
  In (402%Z, TextBody text)
     (sends_of (trace_of unit declining POST_capture_payment_intent req tt)) /\
  logs_of (trace_of unit declining POST_capture_payment_intent req tt) =
    [String "010" text ++ String "010" ""].
Proof.
  cbn zeta. split; [left; reflexivity|].
  apply (text_response_is_logged_line declining POST_capture_payment_intent
           {| body := [("payment_intent_id", JStr "pi_1")] |} tt 402%Z).
  left; reflexivity.
Defined.

(** A capture with an empty body still goes to the vendor, and what the
    vendor resolves to comes back as [{intent, secret}]. *)
Lemma intent_routes_relay_capture :
  exists c,
    calls_of (trace_of nat (accepting "pi_1_secret_x") POST_capture_payment_intent
                {| body := [] |} 0) = [c] /\
    forall o, resolved_object c (fst (accepting "pi_1_secret_x" c 0)) = Some o ->
      match ToString (logged_id POST_capture_payment_intent {| body := [] |} o) with
      | Normal _ =>
          sends_of (trace_of nat (accepting "pi_1_secret_x") POST_capture_payment_intent
                      {| body := [] |} 0) =
            [(200%Z, JsonBody (JObj [("intent", prop o "id");
                                     ("secret", prop o "client_secret")]))]
      | Throw _ =>
          exists text,
            sends_of (trace_of nat (accepting "pi_1_secret_x")
                        POST_capture_payment_intent {| body := [] |} 0) =
              [(402%Z, TextBody text)]
      end.
Proof.
  apply (intent_routes_relay_id_and_secret (accepting "pi_1_secret_x")
           POST_capture_payment_intent {| body := [] |} 0).
  - cbn; auto.
  - discriminate.
Defined.

(** A [customer] in the body of an attach request changes nothing. *)
Lemma handlers_ignore_caller_customer :
  serve nat (accepting "x") POST_attach_payment_method_to_customer
    {| body := [("payment_method_id", JStr "pm_1"); ("customer", JStr "cus_other")] |} 0 =
  serve nat (accepting "x") POST_attach_payment_method_to_customer
    {| body := [("payment_method_id", JStr "pm_1")] |} 0.
Proof.
  apply (handlers_read_only_their_fields (accepting "x")
           POST_attach_payment_method_to_customer).
  intros k [<-|[]]; reflexivity.
Defined.

(** An attach that goes through, to the customer created on the way. *)
Lemma attach_relays_payment_method_runs :
  let tr := trace_of nat (accepting "x") POST_attach_payment_method_to_customer
              {| body := [("payment_method_id", JStr "pm_1")] |} 0 in
  sends_of tr =
    [(200%Z, JsonBody (JObj [("id", JStr "pm_1");
                             ("customer", JObj [("id", JStr "cus_1")])]))] /\
  logs_of tr =
    [String "010" ("Attached PaymentMethod to Customer: " ++ "cus_1")
       ++ String "010" ""].
Proof.
  cbn zeta.
  apply (attach_relays_payment_method (accepting "x")
           {| body := [("payment_method_id", JStr "pm_1")] |} 0
           [("id", JStr "pm_1"); ("customer", JObj [("id", JStr "cus_1")])]
           "cus_1");
    reflexivity.
Defined.

(** A handle that does carry the property: the validator then accepts a
    test key and refuses a live one. *)
Lemma validateApiKey_on_carried_keys :
  validateApiKey
    (JObj [("StripeResource", JObj [("STRIPE_SECRET_KEY", JStr "sk_test_51H")])]) =
    Normal None /\
  validateApiKey
    (JObj [("StripeResource", JObj [("STRIPE_SECRET_KEY", JStr "sk_live_51H")])]) =
    Normal (Some "Error: you used a live mode secret key. Use your test mode secret key.").
Proof.
  split.
  - apply (validateApiKey_decides_on_value_read
             (JObj [("StripeResource", JObj [("STRIPE_SECRET_KEY", JStr "sk_test_51H")])])
             (JStr "sk_test_51H") eq_refl eq_refl).
    exists "sk_test_51H". repeat split; try discriminate.
    + intros [rest same]; discriminate same.
    + intros [rest same]; discriminate same.
  - apply (validateApiKey_decides_on_value_read
             (JObj [("StripeResource", JObj [("STRIPE_SECRET_KEY", JStr "sk_live_51H")])])
             (JStr "sk_live_51H") eq_refl eq_refl) with (rest := "_51H").
    reflexivity.
Defined.

(** The accepting vendor keeps its customers, and its search shows them. *)
Lemma accepting_keeps_customers (secret : string) (c : vendor_call) (n : nat) :
  0 < n -> 0 < snd (accepting secret c n).
Proof. destruct c; cbn; lia. Qed.

Lemma accepting_finds_customers (secret : string) (n : nat) :
  0 < n ->
  fst (accepting secret (customers_list
    (JObj [("email", JStr "example@test.com");
           ("limit", JNum (Num 1 eq_refl))])) n) <> inl [].
Proof. destruct n; cbn; [lia | discriminate]. Qed.

Lemma accepting_found_is_known (secret : string) (n : nat) (customer : obj)
    (rest : list obj) :
  fst (accepting secret (customers_list
    (JObj [("email", JStr "example@test.com");
           ("limit", JNum (Num 1 eq_refl))])) n) =
    inl (customer :: rest) ->
  0 < n.
Proof. destruct n; cbn; [discriminate | lia]. Qed.

Lemma accepting_creates_customers (secret : string) (n : nat) (customer : obj) :
  fst (accepting secret (customers_create
    (JObj [("email", JStr "example@test.com")])) n) = inl customer ->
  0 < snd (accepting secret (customers_create
    (JObj [("email", JStr "example@test.com")])) n).
Proof. cbn; lia. Qed.

(** Two attach requests in a row against the accepting vendor, starting
    without a sentinel customer: the first leaves one on record, the second
    creates none. *)
Lemma sentinel_customer_created_once_runs :
  let req := {| body := [("payment_method_id", JStr "pm_1")] |} in
  let after_first :=
    vendor (snd (serve nat (accepting "x") POST_attach_payment_method_to_customer req 0)) in
  0 < after_first /\
  forall params,
    ~ In (customers_create params)
         (calls_of (trace_of nat (accepting "x")
                      POST_attach_payment_method_to_customer req 1)).
Proof.
  cbn zeta.
  destruct (sentinel_customer_created_once (accepting "x") (fun n => 0 < n)
              (accepting_keeps_customers "x") (accepting_finds_customers "x")
              (accepting_found_is_known "x") (accepting_creates_customers "x"))
    as (_ & recorded & once).
  split.
  - apply (recorded {| body := [("payment_method_id", JStr "pm_1")] |} 0).
    reflexivity.
  - intros params.
    apply (once {| body := [("payment_method_id", JStr "pm_1")] |} 1 params).
    lia.
Defined.
